(** * http-responses: HTTP outcomes as values

    A shallow embedding of the three TypeScript modules of the library

    - [Index]     : src/index.ts      ([HttpResponse] and every pre-built class),
    - [Responses] : src/responses.ts  ([HttpResponse] and the 1xx-3xx classes),
    - [Errors]    : the errors module ([HttpError] and the 4xx-5xx classes),

    followed by the properties of construction: status and message
    defaulting, absorption of registry failures, the shape of the pre-built
    classes and the equivalence of the two families. *)

From Stdlib Require Import ZArith String List Bool.
Import ListNotations.

Local Open Scope string_scope.
Local Open Scope Z_scope.

(** ** A fragment of JavaScript evaluation *)

Module Js.

(** How the evaluation of an expression or a statement completes: with a
    value, or with a thrown exception of type [E]. *)
Inductive completion (E A : Type) : Type :=
| Normal (a : A)
| Throw (e : E).

Arguments Normal {E A} a.
Arguments Throw {E A} e.

Definition ret {E A : Type} (a : A) : completion E A := Normal a.

Definition bind {E A B : Type} (c : completion E A) (k : A -> completion E B)
  : completion E B :=
  match c with
  | Normal a => k a
  | Throw e => Throw e
  end.

(** [try { body } catch (e) { handler e }] *)
Definition try_catch {E A : Type} (body : completion E A)
  (handler : E -> completion E A) : completion E A :=
  match body with
  | Normal a => Normal a
  | Throw e => handler e
  end.

Definition map {E A B : Type} (f : A -> B) (c : completion E A)
  : completion E B :=
  bind c (fun a => ret (f a)).

(** A string is falsy exactly when it is empty. *)
Definition truthy (s : string) : bool := negb (String.eqb s "").

(** [a || b] where [a] has type [string | undefined] ([None] is
    [undefined]) and [b] is an expression that may throw.  The right operand
    is evaluated only when the left one is falsy. *)
Definition or_else {E : Type} (a : option string) (b : completion E string)
  : completion E string :=
  match a with
  | Some s => if truthy s then Normal s else b
  | None => b
  end.

(** [a || b] where [b] is a string already evaluated. *)
Definition or (a : option string) (b : string) : string :=
  match a with
  | Some s => if truthy s then s else b
  | None => b
  end.

(** The actual arguments of a call, by position. *)
Definition arguments := list (option string).

(** The value bound to the [n]-th formal parameter: [undefined] when the
    call passes fewer arguments. *)
Definition arg (n : nat) (args : arguments) : option string :=
  nth n args None.

(** A class constructor declared with one or with two optional string
    parameters. *)
Inductive ctor (R : Type) : Type :=
| Ctor1 (f : option string -> R)
| Ctor2 (f : option string -> option string -> R).

Arguments Ctor1 {R} f.
Arguments Ctor2 {R} f.

Definition arity {R : Type} (c : ctor R) : nat :=
  match c with
  | Ctor1 _ => 1%nat
  | Ctor2 _ => 2%nat
  end.

(** [new C(...args)]: formal parameters are bound by position and the
    arguments beyond the declared ones are ignored. *)
Definition new {R : Type} (c : ctor R) (args : arguments) : R :=
  match c with
  | Ctor1 f => f (arg 0 args)
  | Ctor2 f => f (arg 0 args) (arg 1 args)
  end.

End Js.

Export Js.

Declare Scope js_scope.
Delimit Scope js_scope with js.
Notation "x <- c ;; k" := (Js.bind c (fun x => k))
  (at level 61, c at next level, right associativity) : js_scope.

(** ** The data model *)

(** [interface Options { statusCode: number; message?: string; status?: string }].
    [Code] is the representation chosen for the value of the [statusCode]
    property: [Z] for well-typed callers, [option Z] when the static check
    is erased and the property may be missing at run time. *)
Module Options.

Record t (Code : Type) : Type := mk {
  statusCode : Code;
  message : option string;
  status : option string
}.

Arguments mk {Code} _ _ _.
Arguments statusCode {Code} _.
Arguments message {Code} _.
Arguments status {Code} _.

End Options.

(** The three [public readonly] fields of an [HttpResponse] or of an
    [HttpError] instance. *)
Module Outcome.

Record t (Code : Type) : Type := mk {
  statusCode : Code;
  message : string;
  status : string
}.

Arguments mk {Code} _ _ _.
Arguments statusCode {Code} _.
Arguments message {Code} _.
Arguments status {Code} _.

End Outcome.

(** The type of [HttpStatus.getStatusText], the one operation of the
    external package http-status-codes that the library calls: it returns
    the label of a code or throws. *)
Definition lookup (Code Fault : Type) : Type := Code -> completion Fault string.

(** An entry of a catalog of pre-built classes: the name of the class, the
    status code it passes to its parent and its constructor. *)
Definition entry (Fault : Type) : Type :=
  (string * Z * ctor (completion Fault (Outcome.t Z)))%type.

(** ** src/index.ts *)

Module Index.
Section Classes.

Context {Fault : Type}.

(** [HttpResponse]'s constructor:
    [this.status] is assigned inside the [try] block, [this.message] and
    [this.statusCode] after it. *)
Definition HttpResponse {Code : Type} (getStatusText : lookup Code Fault)
  (options : Options.t Code) : completion Fault (Outcome.t Code) :=
  let status := Options.status options in
  let message := Options.message options in
  let statusCode := Options.statusCode options in
  (this_status <-
     try_catch
       (or_else status (getStatusText (Options.statusCode options)))
       (fun _ => ret "Unknown") ;;
   let this_message := Js.or message this_status in
   ret {| Outcome.statusCode := statusCode;
          Outcome.message := this_message;
          Outcome.status := this_status |})%js.

(** The registry seen by the pre-built classes, which all pass a number. *)
Variable getStatusText : lookup Z Fault.

(** The pre-built classes, in the order of the file. *)

Definition Continue (message : option string) :=
  HttpResponse getStatusText
    {| Options.statusCode := 100; Options.message := message; Options.status := None |}.

Definition Created (message : option string) :=
  HttpResponse getStatusText
    {| Options.statusCode := 201; Options.message := message; Options.status := None |}.

Definition MovedPermanently (message : option string) :=
  HttpResponse getStatusText
    {| Options.statusCode := 301; Options.message := message; Options.status := None |}.

Definition MovedTemporarily (message : option string) :=
  HttpResponse getStatusText
    {| Options.statusCode := 302; Options.message := message; Options.status := None |}.

Definition MultiStatus (message : option string) :=
  HttpResponse getStatusText
    {| Options.statusCode := 207; Options.message := message; Options.status := None |}.

Definition MultipleChoices (message : option string) :=
  HttpResponse getStatusText
    {| Options.statusCode := 300; Options.message := message; Options.status := None |}.

Definition NoContent (message : option string) :=
  HttpResponse getStatusText
    {| Options.statusCode := 204; Options.message := message; Options.status := None |}.

Definition NonAuthoritativeInformation (message : option string) :=
  HttpResponse getStatusText
    {| Options.statusCode := 203; Options.message := message; Options.status := None |}.

Definition NotModified (message : option string) :=
  HttpResponse getStatusText
    {| Options.statusCode := 304; Options.message := message; Options.status := None |}.

Definition Success (message : option string) :=
  HttpResponse getStatusText
    {| Options.statusCode := 200; Options.message := message; Options.status := None |}.

Definition PartialContent (message : option string) :=
  HttpResponse getStatusText
    {| Options.statusCode := 206; Options.message := message; Options.status := None |}.

Definition PermanentRedirect (message : option string) :=
  HttpResponse getStatusText
    {| Options.statusCode := 308; Options.message := message; Options.status := None |}.

Definition Processing (message : option string) :=
  HttpResponse getStatusText
    {| Options.statusCode := 102; Options.message := message; Options.status := None |}.

Definition ResetContent (message : option string) :=
  HttpResponse getStatusText
    {| Options.statusCode := 205; Options.message := message; Options.status := None |}.

Definition SeeOther (message : option string) :=
  HttpResponse getStatusText
    {| Options.statusCode := 303; Options.message := message; Options.status := None |}.

Definition SwitchingProtocols (message : option string) :=
  HttpResponse getStatusText
    {| Options.statusCode := 101; Options.message := message; Options.status := None |}.

Definition TemporaryRedirect (message : option string) :=
  HttpResponse getStatusText
    {| Options.statusCode := 307; Options.message := message; Options.status := None |}.

Definition BadGateway (message status : option string) :=
  HttpResponse getStatusText
    {| Options.statusCode := 502; Options.message := message; Options.status := status |}.

Definition BadRequest (message status : option string) :=
  HttpResponse getStatusText
    {| Options.statusCode := 400; Options.message := message; Options.status := status |}.

Definition Conflict (message status : option string) :=
  HttpResponse getStatusText
    {| Options.statusCode := 409; Options.message := message; Options.status := status |}.

Definition ExpectationFailed (message status : option string) :=
  HttpResponse getStatusText
    {| Options.statusCode := 417; Options.message := message; Options.status := status |}.

Definition FailedDependency (message status : option string) :=
  HttpResponse getStatusText
    {| Options.statusCode := 424; Options.message := message; Options.status := status |}.

Definition Forbidden (message status : option string) :=
  HttpResponse getStatusText
    {| Options.statusCode := 403; Options.message := message; Options.status := status |}.

Definition GatewayTimeout (message status : option string) :=
  HttpResponse getStatusText
    {| Options.statusCode := 504; Options.message := message; Options.status := status |}.

Definition Gone (message status : option string) :=
  HttpResponse getStatusText
    {| Options.statusCode := 410; Options.message := message; Options.status := status |}.

Definition HttpVersionNotSupported (message status : option string) :=
  HttpResponse getStatusText
    {| Options.statusCode := 410; Options.message := message; Options.status := status |}.

Definition ImATeapot (message status : option string) :=
  HttpResponse getStatusText
    {| Options.statusCode := 418; Options.message := message; Options.status := status |}.

Definition InsufficientSpaceOnResource (message status : option string) :=
  HttpResponse getStatusText
    {| Options.statusCode := 419; Options.message := message; Options.status := status |}.

Definition InsufficientStorage (message status : option string) :=
  HttpResponse getStatusText
    {| Options.statusCode := 419; Options.message := message; Options.status := status |}.

Definition InternalServerError (message status : option string) :=
  HttpResponse getStatusText
    {| Options.statusCode := 500; Options.message := message; Options.status := status |}.

Definition LengthRequired (message status : option string) :=
  HttpResponse getStatusText
    {| Options.statusCode := 411; Options.message := message; Options.status := status |}.

Definition Locked (message status : option string) :=
  HttpResponse getStatusText
    {| Options.statusCode := 423; Options.message := message; Options.status := status |}.

Definition MethodNotAllowed (message status : option string) :=
  HttpResponse getStatusText
    {| Options.statusCode := 405; Options.message := message; Options.status := status |}.

Definition NetworkAuthenticationRequired (message status : option string) :=
  HttpResponse getStatusText
    {| Options.statusCode := 511; Options.message := message; Options.status := status |}.

Definition NotAcceptable (message status : option string) :=
  HttpResponse getStatusText
    {| Options.statusCode := 406; Options.message := message; Options.status := status |}.

Definition NotFound (message status : option string) :=
  HttpResponse getStatusText
    {| Options.statusCode := 404; Options.message := message; Options.status := status |}.

Definition NotImplemented (message status : option string) :=
  HttpResponse getStatusText
    {| Options.statusCode := 501; Options.message := message; Options.status := status |}.

Definition PaymentRequired (message status : option string) :=
  HttpResponse getStatusText
    {| Options.statusCode := 402; Options.message := message; Options.status := status |}.

Definition PreconditionFailed (message status : option string) :=
  HttpResponse getStatusText
    {| Options.statusCode := 412; Options.message := message; Options.status := status |}.

Definition PreconditionRequired (message status : option string) :=
  HttpResponse getStatusText
    {| Options.statusCode := 428; Options.message := message; Options.status := status |}.

Definition ProxyAuthenticationRequired (message status : option string) :=
  HttpResponse getStatusText
    {| Options.statusCode := 407; Options.message := message; Options.status := status |}.

Definition RequestHeaderFieldsTooLarge (message status : option string) :=
  HttpResponse getStatusText
    {| Options.statusCode := 431; Options.message := message; Options.status := status |}.

Definition RequestTimeout (message status : option string) :=
  HttpResponse getStatusText
    {| Options.statusCode := 408; Options.message := message; Options.status := status |}.

Definition RequestTooLong (message status : option string) :=
  HttpResponse getStatusText
    {| Options.statusCode := 413; Options.message := message; Options.status := status |}.

Definition RequestURITooLong (message status : option string) :=
  HttpResponse getStatusText
    {| Options.statusCode := 414; Options.message := message; Options.status := status |}.

Definition RequestedRangeNotSatisfiable (message status : option string) :=
  HttpResponse getStatusText
    {| Options.statusCode := 416; Options.message := message; Options.status := status |}.

Definition ServiceUnavailable (message status : option string) :=
  HttpResponse getStatusText
    {| Options.statusCode := 503; Options.message := message; Options.status := status |}.

Definition TooManyRequests (message status : option string) :=
  HttpResponse getStatusText
    {| Options.statusCode := 429; Options.message := message; Options.status := status |}.

Definition Unauthorized (message status : option string) :=
  HttpResponse getStatusText
    {| Options.statusCode := 401; Options.message := message; Options.status := status |}.

Definition UnprocessableEntity (message status : option string) :=
  HttpResponse getStatusText
    {| Options.statusCode := 422; Options.message := message; Options.status := status |}.

Definition UnsupportedMediaType (message status : option string) :=
  HttpResponse getStatusText
    {| Options.statusCode := 415; Options.message := message; Options.status := status |}.

Definition catalog : list (entry Fault) :=
  [ ("Continue", 100, Ctor1 Continue);
    ("Created", 201, Ctor1 Created);
    ("MovedPermanently", 301, Ctor1 MovedPermanently);
    ("MovedTemporarily", 302, Ctor1 MovedTemporarily);
    ("MultiStatus", 207, Ctor1 MultiStatus);
    ("MultipleChoices", 300, Ctor1 MultipleChoices);
    ("NoContent", 204, Ctor1 NoContent);
    ("NonAuthoritativeInformation", 203, Ctor1 NonAuthoritativeInformation);
    ("NotModified", 304, Ctor1 NotModified);
    ("Success", 200, Ctor1 Success);
    ("PartialContent", 206, Ctor1 PartialContent);
    ("PermanentRedirect", 308, Ctor1 PermanentRedirect);
    ("Processing", 102, Ctor1 Processing);
    ("ResetContent", 205, Ctor1 ResetContent);
    ("SeeOther", 303, Ctor1 SeeOther);
    ("SwitchingProtocols", 101, Ctor1 SwitchingProtocols);
    ("TemporaryRedirect", 307, Ctor1 TemporaryRedirect);
    ("BadGateway", 502, Ctor2 BadGateway);
    ("BadRequest", 400, Ctor2 BadRequest);
    ("Conflict", 409, Ctor2 Conflict);
    ("ExpectationFailed", 417, Ctor2 ExpectationFailed);
    ("FailedDependency", 424, Ctor2 FailedDependency);
    ("Forbidden", 403, Ctor2 Forbidden);
    ("GatewayTimeout", 504, Ctor2 GatewayTimeout);
    ("Gone", 410, Ctor2 Gone);
    ("HttpVersionNotSupported", 410, Ctor2 HttpVersionNotSupported);
    ("ImATeapot", 418, Ctor2 ImATeapot);
    ("InsufficientSpaceOnResource", 419, Ctor2 InsufficientSpaceOnResource);
    ("InsufficientStorage", 419, Ctor2 InsufficientStorage);
    ("InternalServerError", 500, Ctor2 InternalServerError);
    ("LengthRequired", 411, Ctor2 LengthRequired);
    ("Locked", 423, Ctor2 Locked);
    ("MethodNotAllowed", 405, Ctor2 MethodNotAllowed);
    ("NetworkAuthenticationRequired", 511, Ctor2 NetworkAuthenticationRequired);
    ("NotAcceptable", 406, Ctor2 NotAcceptable);
    ("NotFound", 404, Ctor2 NotFound);
    ("NotImplemented", 501, Ctor2 NotImplemented);
    ("PaymentRequired", 402, Ctor2 PaymentRequired);
    ("PreconditionFailed", 412, Ctor2 PreconditionFailed);
    ("PreconditionRequired", 428, Ctor2 PreconditionRequired);
    ("ProxyAuthenticationRequired", 407, Ctor2 ProxyAuthenticationRequired);
    ("RequestHeaderFieldsTooLarge", 431, Ctor2 RequestHeaderFieldsTooLarge);
    ("RequestTimeout", 408, Ctor2 RequestTimeout);
    ("RequestTooLong", 413, Ctor2 RequestTooLong);
    ("RequestURITooLong", 414, Ctor2 RequestURITooLong);
    ("RequestedRangeNotSatisfiable", 416, Ctor2 RequestedRangeNotSatisfiable);
    ("ServiceUnavailable", 503, Ctor2 ServiceUnavailable);
    ("TooManyRequests", 429, Ctor2 TooManyRequests);
    ("Unauthorized", 401, Ctor2 Unauthorized);
    ("UnprocessableEntity", 422, Ctor2 UnprocessableEntity);
    ("UnsupportedMediaType", 415, Ctor2 UnsupportedMediaType) ].

End Classes.
End Index.

(** ** src/responses.ts *)

Module Responses.
Section Classes.

Context {Fault : Type}.

(** [HttpResponse]'s constructor:
    [this.status] is assigned inside the [try] block, [this.message] and
    [this.statusCode] after it. *)
Definition HttpResponse {Code : Type} (getStatusText : lookup Code Fault)
  (options : Options.t Code) : completion Fault (Outcome.t Code) :=
  let status := Options.status options in
  let message := Options.message options in
  let statusCode := Options.statusCode options in
  (this_status <-
     try_catch
       (or_else status (getStatusText (Options.statusCode options)))
       (fun _ => ret "Unknown") ;;
   let this_message := Js.or message this_status in
   ret {| Outcome.statusCode := statusCode;
          Outcome.message := this_message;
          Outcome.status := this_status |})%js.

(** The registry seen by the pre-built classes, which all pass a number. *)
Variable getStatusText : lookup Z Fault.

(** The pre-built classes, in the order of the file. *)

Definition Continue (message : option string) :=
  HttpResponse getStatusText
    {| Options.statusCode := 100; Options.message := message; Options.status := None |}.

Definition Created (message : option string) :=
  HttpResponse getStatusText
    {| Options.statusCode := 201; Options.message := message; Options.status := None |}.

Definition MovedPermanently (message : option string) :=
  HttpResponse getStatusText
    {| Options.statusCode := 301; Options.message := message; Options.status := None |}.

Definition MovedTemporarily (message : option string) :=
  HttpResponse getStatusText
    {| Options.statusCode := 302; Options.message := message; Options.status := None |}.

Definition MultiStatus (message : option string) :=
  HttpResponse getStatusText
    {| Options.statusCode := 207; Options.message := message; Options.status := None |}.

Definition MultipleChoices (message : option string) :=
  HttpResponse getStatusText
    {| Options.statusCode := 300; Options.message := message; Options.status := None |}.

Definition NoContent (message : option string) :=
  HttpResponse getStatusText
    {| Options.statusCode := 204; Options.message := message; Options.status := None |}.

Definition NonAuthoritativeInformation (message : option string) :=
  HttpResponse getStatusText
    {| Options.statusCode := 203; Options.message := message; Options.status := None |}.

Definition NotModified (message : option string) :=
  HttpResponse getStatusText
    {| Options.statusCode := 304; Options.message := message; Options.status := None |}.

Definition Success (message : option string) :=
  HttpResponse getStatusText
    {| Options.statusCode := 200; Options.message := message; Options.status := None |}.

Definition PartialContent (message : option string) :=
  HttpResponse getStatusText
    {| Options.statusCode := 206; Options.message := message; Options.status := None |}.

Definition PermanentRedirect (message : option string) :=
  HttpResponse getStatusText
    {| Options.statusCode := 308; Options.message := message; Options.status := None |}.

Definition Processing (message : option string) :=
  HttpResponse getStatusText
    {| Options.statusCode := 102; Options.message := message; Options.status := None |}.

Definition ResetContent (message : option string) :=
  HttpResponse getStatusText
    {| Options.statusCode := 205; Options.message := message; Options.status := None |}.

Definition SeeOther (message : option string) :=
  HttpResponse getStatusText
    {| Options.statusCode := 303; Options.message := message; Options.status := None |}.

Definition SwitchingProtocols (message : option string) :=
  HttpResponse getStatusText
    {| Options.statusCode := 101; Options.message := message; Options.status := None |}.

Definition TemporaryRedirect (message : option string) :=
  HttpResponse getStatusText
    {| Options.statusCode := 307; Options.message := message; Options.status := None |}.

Definition catalog : list (entry Fault) :=
  [ ("Continue", 100, Ctor1 Continue);
    ("Created", 201, Ctor1 Created);
    ("MovedPermanently", 301, Ctor1 MovedPermanently);
    ("MovedTemporarily", 302, Ctor1 MovedTemporarily);
    ("MultiStatus", 207, Ctor1 MultiStatus);
    ("MultipleChoices", 300, Ctor1 MultipleChoices);
    ("NoContent", 204, Ctor1 NoContent);
    ("NonAuthoritativeInformation", 203, Ctor1 NonAuthoritativeInformation);
    ("NotModified", 304, Ctor1 NotModified);
    ("Success", 200, Ctor1 Success);
    ("PartialContent", 206, Ctor1 PartialContent);
    ("PermanentRedirect", 308, Ctor1 PermanentRedirect);
    ("Processing", 102, Ctor1 Processing);
    ("ResetContent", 205, Ctor1 ResetContent);
    ("SeeOther", 303, Ctor1 SeeOther);
    ("SwitchingProtocols", 101, Ctor1 SwitchingProtocols);
    ("TemporaryRedirect", 307, Ctor1 TemporaryRedirect) ].

End Classes.
End Responses.

(** ** The errors module *)

Module Errors.
Section Classes.

Context {Fault : Type}.

(** [HttpError]'s constructor (the call [super()] builds the underlying [Error] and cannot throw):
    [this.status] is assigned inside the [try] block, [this.message] and
    [this.statusCode] after it. *)
Definition HttpError {Code : Type} (getStatusText : lookup Code Fault)
  (options : Options.t Code) : completion Fault (Outcome.t Code) :=
  let status := Options.status options in
  let message := Options.message options in
  let statusCode := Options.statusCode options in
  (this_status <-
     try_catch
       (or_else status (getStatusText (Options.statusCode options)))
       (fun _ => ret "Unknown") ;;
   let this_message := Js.or message this_status in
   ret {| Outcome.statusCode := statusCode;
          Outcome.message := this_message;
          Outcome.status := this_status |})%js.

(** The registry seen by the pre-built classes, which all pass a number. *)
Variable getStatusText : lookup Z Fault.

(** The pre-built classes, in the order of the file. *)

Definition BadGateway (message status : option string) :=
  HttpError getStatusText
    {| Options.statusCode := 502; Options.message := message; Options.status := status |}.

Definition BadRequest (message status : option string) :=
  HttpError getStatusText
    {| Options.statusCode := 400; Options.message := message; Options.status := status |}.

Definition Conflict (message status : option string) :=
  HttpError getStatusText
    {| Options.statusCode := 409; Options.message := message; Options.status := status |}.

Definition ExpectationFailed (message status : option string) :=
  HttpError getStatusText
    {| Options.statusCode := 417; Options.message := message; Options.status := status |}.

Definition FailedDependency (message status : option string) :=
  HttpError getStatusText
    {| Options.statusCode := 424; Options.message := message; Options.status := status |}.

Definition Forbidden (message status : option string) :=
  HttpError getStatusText
    {| Options.statusCode := 403; Options.message := message; Options.status := status |}.

Definition GatewayTimeout (message status : option string) :=
  HttpError getStatusText
    {| Options.statusCode := 504; Options.message := message; Options.status := status |}.

Definition Gone (message status : option string) :=
  HttpError getStatusText
    {| Options.statusCode := 410; Options.message := message; Options.status := status |}.

Definition HttpVersionNotSupported (message status : option string) :=
  HttpError getStatusText
    {| Options.statusCode := 410; Options.message := message; Options.status := status |}.

Definition ImATeapot (message status : option string) :=
  HttpError getStatusText
    {| Options.statusCode := 418; Options.message := message; Options.status := status |}.

Definition InsufficientSpaceOnResource (message status : option string) :=
  HttpError getStatusText
    {| Options.statusCode := 419; Options.message := message; Options.status := status |}.

Definition InsufficientStorage (message status : option string) :=
  HttpError getStatusText
    {| Options.statusCode := 419; Options.message := message; Options.status := status |}.

Definition InternalServerError (message status : option string) :=
  HttpError getStatusText
    {| Options.statusCode := 500; Options.message := message; Options.status := status |}.

Definition LengthRequired (message status : option string) :=
  HttpError getStatusText
    {| Options.statusCode := 411; Options.message := message; Options.status := status |}.

Definition Locked (message status : option string) :=
  HttpError getStatusText
    {| Options.statusCode := 423; Options.message := message; Options.status := status |}.

Definition MethodNotAllowed (message status : option string) :=
  HttpError getStatusText
    {| Options.statusCode := 405; Options.message := message; Options.status := status |}.

Definition NetworkAuthenticationRequired (message status : option string) :=
  HttpError getStatusText
    {| Options.statusCode := 511; Options.message := message; Options.status := status |}.

Definition NotAcceptable (message status : option string) :=
  HttpError getStatusText
    {| Options.statusCode := 406; Options.message := message; Options.status := status |}.

Definition NotFound (message status : option string) :=
  HttpError getStatusText
    {| Options.statusCode := 404; Options.message := message; Options.status := status |}.

Definition NotImplemented (message status : option string) :=
  HttpError getStatusText
    {| Options.statusCode := 501; Options.message := message; Options.status := status |}.

Definition PaymentRequired (message status : option string) :=
  HttpError getStatusText
    {| Options.statusCode := 402; Options.message := message; Options.status := status |}.

Definition PreconditionFailed (message status : option string) :=
  HttpError getStatusText
    {| Options.statusCode := 412; Options.message := message; Options.status := status |}.

Definition PreconditionRequired (message status : option string) :=
  HttpError getStatusText
    {| Options.statusCode := 428; Options.message := message; Options.status := status |}.

Definition ProxyAuthenticationRequired (message status : option string) :=
  HttpError getStatusText
    {| Options.statusCode := 407; Options.message := message; Options.status := status |}.

Definition RequestHeaderFieldsTooLarge (message status : option string) :=
  HttpError getStatusText
    {| Options.statusCode := 431; Options.message := message; Options.status := status |}.

Definition RequestTimeout (message status : option string) :=
  HttpError getStatusText
    {| Options.statusCode := 408; Options.message := message; Options.status := status |}.

Definition RequestTooLong (message status : option string) :=
  HttpError getStatusText
    {| Options.statusCode := 413; Options.message := message; Options.status := status |}.

Definition RequestURITooLong (message status : option string) :=
  HttpError getStatusText
    {| Options.statusCode := 414; Options.message := message; Options.status := status |}.

Definition RequestedRangeNotSatisfiable (message status : option string) :=
  HttpError getStatusText
    {| Options.statusCode := 416; Options.message := message; Options.status := status |}.

Definition ServiceUnavailable (message status : option string) :=
  HttpError getStatusText
    {| Options.statusCode := 503; Options.message := message; Options.status := status |}.

Definition TooManyRequests (message status : option string) :=
  HttpError getStatusText
    {| Options.statusCode := 429; Options.message := message; Options.status := status |}.

Definition Unauthorized (message status : option string) :=
  HttpError getStatusText
    {| Options.statusCode := 401; Options.message := message; Options.status := status |}.

Definition UnprocessableEntity (message status : option string) :=
  HttpError getStatusText
    {| Options.statusCode := 422; Options.message := message; Options.status := status |}.

Definition UnsupportedMediaType (message status : option string) :=
  HttpError getStatusText
    {| Options.statusCode := 415; Options.message := message; Options.status := status |}.

Definition catalog : list (entry Fault) :=
  [ ("BadGateway", 502, Ctor2 BadGateway);
    ("BadRequest", 400, Ctor2 BadRequest);
    ("Conflict", 409, Ctor2 Conflict);
    ("ExpectationFailed", 417, Ctor2 ExpectationFailed);
    ("FailedDependency", 424, Ctor2 FailedDependency);
    ("Forbidden", 403, Ctor2 Forbidden);
    ("GatewayTimeout", 504, Ctor2 GatewayTimeout);
    ("Gone", 410, Ctor2 Gone);
    ("HttpVersionNotSupported", 410, Ctor2 HttpVersionNotSupported);
    ("ImATeapot", 418, Ctor2 ImATeapot);
    ("InsufficientSpaceOnResource", 419, Ctor2 InsufficientSpaceOnResource);
    ("InsufficientStorage", 419, Ctor2 InsufficientStorage);
    ("InternalServerError", 500, Ctor2 InternalServerError);
    ("LengthRequired", 411, Ctor2 LengthRequired);
    ("Locked", 423, Ctor2 Locked);
    ("MethodNotAllowed", 405, Ctor2 MethodNotAllowed);
    ("NetworkAuthenticationRequired", 511, Ctor2 NetworkAuthenticationRequired);
    ("NotAcceptable", 406, Ctor2 NotAcceptable);
    ("NotFound", 404, Ctor2 NotFound);
    ("NotImplemented", 501, Ctor2 NotImplemented);
    ("PaymentRequired", 402, Ctor2 PaymentRequired);
    ("PreconditionFailed", 412, Ctor2 PreconditionFailed);
    ("PreconditionRequired", 428, Ctor2 PreconditionRequired);
    ("ProxyAuthenticationRequired", 407, Ctor2 ProxyAuthenticationRequired);
    ("RequestHeaderFieldsTooLarge", 431, Ctor2 RequestHeaderFieldsTooLarge);
    ("RequestTimeout", 408, Ctor2 RequestTimeout);
    ("RequestTooLong", 413, Ctor2 RequestTooLong);
    ("RequestURITooLong", 414, Ctor2 RequestURITooLong);
    ("RequestedRangeNotSatisfiable", 416, Ctor2 RequestedRangeNotSatisfiable);
    ("ServiceUnavailable", 503, Ctor2 ServiceUnavailable);
    ("TooManyRequests", 429, Ctor2 TooManyRequests);
    ("Unauthorized", 401, Ctor2 Unauthorized);
    ("UnprocessableEntity", 422, Ctor2 UnprocessableEntity);
    ("UnsupportedMediaType", 415, Ctor2 UnsupportedMediaType) ].

End Classes.
End Errors.

(** ** Classes defined by a consumer of the library *)

Module Readme.
Section Custom.

Context {Fault : Type} {R : Type}.

(** README, "Custom Errors/Responses": a class that extends a pre-built
    class and whose constructor calls [super(message, label)], so that the
    code of the parent is kept and the status label is fixed.  (The README
    spells the member [constuctor]; a constructor is meant.) *)
Definition extends_with_status (parent : option string -> option string -> R)
  (label : string) (message : option string) : R :=
  parent message (Some label).

End Custom.

(** [class ValidationError extends BadRequest], over the errors module. *)
Definition ValidationError {Fault : Type} (getStatusText : lookup Z Fault)
  (message : option string) :=
  extends_with_status (Errors.BadRequest getStatusText) "Validation Error" message.

(** The same class over the [BadRequest] of src/index.ts. *)
Definition ValidationResponse {Fault : Type} (getStatusText : lookup Z Fault)
  (message : option string) :=
  extends_with_status (Index.BadRequest getStatusText) "Validation Error" message.

End Readme.

(** ** A registry to run the classes on *)

Module Registry.

(** What http-status-codes throws for a code it does not know. *)
Inductive fault : Type :=
| StatusCodeDoesNotExist.

(** Modelled from the spec: the status registry is the external package
    http-status-codes, which is not part of the repository.  Only the two
    entries that the specification quotes are listed, 201 and 400; every
    other code is unregistered and its lookup throws. *)
Definition sample : lookup Z fault :=
  fun code =>
    if code =? 201 then Normal "Created"
    else if code =? 400 then Normal "Bad Request"
    else Throw StatusCodeDoesNotExist.


End Registry.

(** ** The construction rules in the words of the specification *)

Module Spec.
Section Rules.

Context {Code Fault : Type}.
Variable registry : lookup Code Fault.

(** "provided and non-empty" *)
Definition provided (field : option string) : option string :=
  match field with
  | Some s => if String.eqb s "" then None else Some s
  | None => None
  end.

(** The registry's label for a code, when the registry has an entry. *)
Definition label (code : Code) : option string :=
  match registry code with
  | Normal l => Some l
  | Throw _ => None
  end.

(** Step 1: resolve [status]. *)
Definition status (options : Options.t Code) : string :=
  match provided (Options.status options) with
  | Some s => s
  | None =>
      match label (Options.statusCode options) with
      | Some l => l
      | None => "Unknown"
      end
  end.

(** Step 2: resolve [message], from the status of step 1. *)
Definition message (options : Options.t Code) : string :=
  match provided (Options.message options) with
  | Some m => m
  | None => status options
  end.

(** Step 3: the outcome stores [statusCode] as given. *)
Definition construct (options : Options.t Code) : Outcome.t Code :=
  {| Outcome.statusCode := Options.statusCode options;
     Outcome.message := message options;
     Outcome.status := status options |}.

End Rules.
End Spec.

(** ** The catalogs as tables *)

Module Catalog.

Definition name {Fault : Type} (e : entry Fault) : string := fst (fst e).

Definition code {Fault : Type} (e : entry Fault) : Z := snd (fst e).

Definition class {Fault : Type} (e : entry Fault)
  : ctor (completion Fault (Outcome.t Z)) := snd e.

(** The name and the code of a class, without its constructor. *)
Definition row {Fault : Type} (e : entry Fault) : string * Z := fst e.

(** Every pre-built class of the three modules. *)
Definition every {Fault : Type} (getStatusText : lookup Z Fault)
  : list (entry Fault) :=
  Index.catalog getStatusText ++ Responses.catalog getStatusText
    ++ Errors.catalog getStatusText.

(** The pairs of class names that are declared with one and the same code. *)
Definition twins : list (string * string) :=
  [ ("Gone", "HttpVersionNotSupported");
    ("InsufficientSpaceOnResource", "InsufficientStorage") ].

Definition is_twin (a b : string) : bool :=
  existsb
    (fun pair =>
       (String.eqb (fst pair) a && String.eqb (snd pair) b)
       || (String.eqb (fst pair) b && String.eqb (snd pair) a))
    twins.

(** Two rows either have different codes, or the same name, or the names
    of twins. *)
Definition apart_or_twins (r1 r2 : string * Z) : bool :=
  negb (snd r1 =? snd r2) || String.eqb (fst r1) (fst r2)
  || is_twin (fst r1) (fst r2).

Definition codes_shared_by_twins_only (rows : list (string * Z)) : bool :=
  forallb (fun r1 => forallb (apart_or_twins r1) rows) rows.

(** What a pre-built class computes: it takes one parameter below 400 and
    two from 400 on, and returns the outcome of the specification at its
    code, with the second argument as status from 400 on. *)
Definition runs_as_specified {Fault : Type} (getStatusText : lookup Z Fault)
  (e : entry Fault) : Prop :=
  arity (class e) = (if code e <? 400 then 1%nat else 2%nat) /\
  forall args,
    new (class e) args
    = Normal
        (Spec.construct getStatusText
           (Options.mk (code e) (arg 0 args)
              (if code e <? 400 then None else arg 1 args))).

Definition codes_within (low high : Z) (rows : list (string * Z)) : bool :=
  forallb (fun r => (low <=? snd r) && (snd r <? high)) rows.

Definition codes_avoid (absent : list Z) (rows : list (string * Z)) : bool :=
  forallb (fun r => forallb (fun c => negb (snd r =? c)) absent) rows.

End Catalog.

(** ** The standard codes *)

Module Standard.

(** Modelled from the spec: the standard status code of each named
    response, that is the code table of the status registry (the constants
    of the package http-status-codes), which is outside the repository.
    [Success] stands for the registry's OK. *)
Definition table : list (string * Z) :=
  [ ("Continue", 100);
    ("SwitchingProtocols", 101);
    ("Processing", 102);
    ("Success", 200);
    ("Created", 201);
    ("NonAuthoritativeInformation", 203);
    ("NoContent", 204);
    ("ResetContent", 205);
    ("PartialContent", 206);
    ("MultiStatus", 207);
    ("MultipleChoices", 300);
    ("MovedPermanently", 301);
    ("MovedTemporarily", 302);
    ("SeeOther", 303);
    ("NotModified", 304);
    ("TemporaryRedirect", 307);
    ("PermanentRedirect", 308);
    ("BadRequest", 400);
    ("Unauthorized", 401);
    ("PaymentRequired", 402);
    ("Forbidden", 403);
    ("NotFound", 404);
    ("MethodNotAllowed", 405);
    ("NotAcceptable", 406);
    ("ProxyAuthenticationRequired", 407);
    ("RequestTimeout", 408);
    ("Conflict", 409);
    ("Gone", 410);
    ("LengthRequired", 411);
    ("PreconditionFailed", 412);
    ("RequestTooLong", 413);
    ("RequestURITooLong", 414);
    ("UnsupportedMediaType", 415);
    ("RequestedRangeNotSatisfiable", 416);
    ("ExpectationFailed", 417);
    ("ImATeapot", 418);
    ("InsufficientSpaceOnResource", 419);
    ("UnprocessableEntity", 422);
    ("Locked", 423);
    ("FailedDependency", 424);
    ("PreconditionRequired", 428);
    ("TooManyRequests", 429);
    ("RequestHeaderFieldsTooLarge", 431);
    ("InternalServerError", 500);
    ("NotImplemented", 501);
    ("BadGateway", 502);
    ("ServiceUnavailable", 503);
    ("GatewayTimeout", 504);
    ("HttpVersionNotSupported", 505);
    ("InsufficientStorage", 507);
    ("NetworkAuthenticationRequired", 511) ].

(** The standard code of a name, when the table has the name. *)
Definition code (name : string) : option Z :=
  option_map snd (find (fun row => String.eqb (fst row) name) table).

(** The two classes whose code is not settled here. *)
Definition left_aside : list string :=
  [ "HttpVersionNotSupported"; "InsufficientStorage" ].

End Standard.

(** ** Outcomes compared by their fields *)

(** Two constructions complete and their outcomes carry the same
    statusCode, message and status.  Nothing is said of the class of the
    two objects: an [HttpError] is an [Error], an [HttpResponse] is not. *)
Definition same_fields {Fault : Type}
  (c1 c2 : completion Fault (Outcome.t Z)) : Prop :=
  exists out1 out2,
    c1 = Normal out1 /\ c2 = Normal out2 /\
    Outcome.statusCode out1 = Outcome.statusCode out2 /\
    Outcome.message out1 = Outcome.message out2 /\
    Outcome.status out1 = Outcome.status out2.

(** ** Properties of construction *)

Section Construction.

Context {Code Fault : Type}.
Variable registry : lookup Code Fault.

(** The two readings of "non-empty" agree. *)
Lemma or_provided (field : option string) (fallback : string) :
  Js.or field fallback =
  match Spec.provided field with Some s => s | None => fallback end.
Proof.
  destruct field as [s|]; simpl; [|reflexivity].
  unfold truthy. destruct (String.eqb s ""); reflexivity.
Qed.

(** The guarded assignment of [this.status] always completes, with the
    status of the specification. *)
Lemma status_assignment (options : Options.t Code) :
  try_catch
    (or_else (Options.status options) (registry (Options.statusCode options)))
    (fun _ => ret "Unknown")
  = Normal (Spec.status registry options).
Proof.
  unfold Spec.status, Spec.label.
  destruct (Options.status options) as [s|]; simpl.
  - unfold truthy. destruct (String.eqb s ""); simpl; [|reflexivity].
    destruct (registry (Options.statusCode options)); reflexivity.
  - destruct (registry (Options.statusCode options)); reflexivity.
Qed.

Lemma Index_HttpResponse_run (options : Options.t Code) :
  Index.HttpResponse registry options = Normal (Spec.construct registry options).
Proof.
  unfold Index.HttpResponse. rewrite status_assignment. simpl.
  unfold Spec.construct, Spec.message. now rewrite or_provided.
Qed.

Lemma Responses_HttpResponse_run (options : Options.t Code) :
  Responses.HttpResponse registry options = Normal (Spec.construct registry options).
Proof.
  unfold Responses.HttpResponse. rewrite status_assignment. simpl.
  unfold Spec.construct, Spec.message. now rewrite or_provided.
Qed.

Lemma Errors_HttpError_run (options : Options.t Code) :
  Errors.HttpError registry options = Normal (Spec.construct registry options).
Proof.
  unfold Errors.HttpError. rewrite status_assignment. simpl.
  unfold Spec.construct, Spec.message. now rewrite or_provided.
Qed.

(** C1: the status of the outcome is the supplied status when one is
    provided and non-empty, otherwise the registry's label for the supplied
    code when the registry has one, otherwise "Unknown"; for the generic
    constructor of each of the three modules. *)
Theorem status_resolution (options : Options.t Code) :
  let expected :=
    match Options.status options with
    | Some s =>
        if String.eqb s "" then
          match registry (Options.statusCode options) with
          | Normal l => l
          | Throw _ => "Unknown"
          end
        else s
    | None =>
        match registry (Options.statusCode options) with
        | Normal l => l
        | Throw _ => "Unknown"
        end
    end in
  Js.map Outcome.status (Index.HttpResponse registry options) = Normal expected /\
  Js.map Outcome.status (Responses.HttpResponse registry options) = Normal expected /\
  Js.map Outcome.status (Errors.HttpError registry options) = Normal expected.
Proof.
  intros expected.
  rewrite Index_HttpResponse_run, Responses_HttpResponse_run, Errors_HttpError_run.
  assert (E : Spec.status registry options = expected).
  { subst expected. unfold Spec.status, Spec.label, Spec.provided.
    destruct (Options.status options) as [s|].
    - destruct (String.eqb s "");
        [destruct (registry (Options.statusCode options))|]; reflexivity.
    - destruct (registry (Options.statusCode options)); reflexivity. }
  simpl. rewrite E. repeat split.
Qed.

(** C2: the message of the outcome is the supplied message when one is
    provided and non-empty, and otherwise the status that the outcome
    carries; in particular message and status coincide when only a status
    code is given. *)
Theorem message_resolution (options : Options.t Code) :
  (exists out,
      Index.HttpResponse registry options = Normal out /\
      Outcome.message out =
        match Options.message options with
        | Some m => if String.eqb m "" then Outcome.status out else m
        | None => Outcome.status out
        end) /\
  (exists out,
      Errors.HttpError registry options = Normal out /\
      Outcome.message out =
        match Options.message options with
        | Some m => if String.eqb m "" then Outcome.status out else m
        | None => Outcome.status out
        end) /\
  (forall statusCode : Code,
      let only_code := Options.mk statusCode None None in
      Js.map Outcome.message (Index.HttpResponse registry only_code)
      = Js.map Outcome.status (Index.HttpResponse registry only_code) /\
      Js.map Outcome.message (Errors.HttpError registry only_code)
      = Js.map Outcome.status (Errors.HttpError registry only_code)).
Proof.
  split; [|split].
  - exists (Spec.construct registry options). split.
    + apply Index_HttpResponse_run.
    + simpl. unfold Spec.message, Spec.provided.
      destruct (Options.message options) as [m|]; [|reflexivity].
      destruct (String.eqb m ""); reflexivity.
  - exists (Spec.construct registry options). split.
    + apply Errors_HttpError_run.
    + simpl. unfold Spec.message, Spec.provided.
      destruct (Options.message options) as [m|]; [|reflexivity].
      destruct (String.eqb m ""); reflexivity.
  - intros statusCode only_code.
    rewrite Index_HttpResponse_run, Errors_HttpError_run. split; reflexivity.
Qed.

(** C9: on every options value the generic constructor of the error family
    and the generic constructors of the response family complete alike and
    give the same statusCode, status and message. *)
Theorem families_agree (options : Options.t Code) :
  Errors.HttpError registry options = Index.HttpResponse registry options /\
  Errors.HttpError registry options = Responses.HttpResponse registry options /\
  exists error response,
    Errors.HttpError registry options = Normal error /\
    Index.HttpResponse registry options = Normal response /\
    Outcome.statusCode error = Outcome.statusCode response /\
    Outcome.status error = Outcome.status response /\
    Outcome.message error = Outcome.message response.
Proof.
  rewrite Errors_HttpError_run, Index_HttpResponse_run, Responses_HttpResponse_run.
  repeat split.
  exists (Spec.construct registry options), (Spec.construct registry options).
  repeat split.
Qed.

End Construction.

(** ** Failures: a missing status code, a failing registry *)

Section Failures.

Context {Fault : Type}.


(** C4, as the code has it: when the lookup of the status code fails, with
    whatever fault, construction still completes normally; if no non-empty
    status was supplied the status is "Unknown", and if moreover no
    non-empty message was supplied the message is "Unknown" too. *)
Theorem lookup_failure_absorbed {Code : Type} (registry : lookup Code Fault)
  (options : Options.t Code) (e : Fault) :
  registry (Options.statusCode options) = Throw e ->
  forall construct,
    In construct
      [Index.HttpResponse registry; Responses.HttpResponse registry;
       Errors.HttpError registry] ->
    exists out,
      construct options = Normal out /\
      (Spec.provided (Options.status options) = None ->
       Outcome.status out = "Unknown" /\
       (Spec.provided (Options.message options) = None ->
        Outcome.message out = "Unknown")).
Proof.
  intros Hfail construct Hin.
  exists (Spec.construct registry options). split.
  - simpl in Hin.
    destruct Hin as [<- | [<- | [<- | []]]];
      auto using Index_HttpResponse_run, Responses_HttpResponse_run, Errors_HttpError_run.
  - intros Hstatus.
    assert (Hunknown : Spec.status registry options = "Unknown").
    { unfold Spec.status, Spec.label. now rewrite Hstatus, Hfail. }
    split; [exact Hunknown|].
    intros Hmessage. simpl. unfold Spec.message. now rewrite Hmessage.
Qed.

(** C8: over a registry whose labels are all non-empty, the status and the
    message of every outcome are non-empty; an empty string supplied for
    either field is never stored. *)
Theorem fields_non_empty {Code : Type} (registry : lookup Code Fault)
  (options : Options.t Code) :
  (forall code l, registry code = Normal l -> l <> "") ->
  forall construct,
    In construct
      [Index.HttpResponse registry; Responses.HttpResponse registry;
       Errors.HttpError registry] ->
    exists out,
      construct options = Normal out /\
      Outcome.status out <> "" /\
      Outcome.message out <> "".
Proof.
  intros Hlabels construct Hin.
  assert (Hprovided : forall field s, Spec.provided field = Some s -> s <> "").
  { intros [x|] s; simpl; [|discriminate].
    destruct (String.eqb_spec x ""); [discriminate|].
    intros [= <-]. assumption. }
  assert (Hstatus : Spec.status registry options <> "").
  { unfold Spec.status, Spec.label.
    destruct (Spec.provided (Options.status options)) as [s|] eqn:Es.
    - eapply Hprovided; eassumption.
    - destruct (registry (Options.statusCode options)) as [l|e] eqn:El.
      + eapply Hlabels; eassumption.
      + discriminate. }
  exists (Spec.construct registry options). split; [|split].
  - simpl in Hin.
    destruct Hin as [<- | [<- | [<- | []]]];
      auto using Index_HttpResponse_run, Responses_HttpResponse_run, Errors_HttpError_run.
  - exact Hstatus.
  - simpl. unfold Spec.message.
    destruct (Spec.provided (Options.message options)) as [m|] eqn:Em.
    + eapply Hprovided; eassumption.
    + exact Hstatus.
Qed.

End Failures.

(** ** The pre-built classes *)

Section Catalogs.

Context {Fault : Type}.
Variable registry : lookup Z Fault.

(** Whatever the options, the status code is stored as given. *)
Lemma statusCode_stored_response (options : Options.t Z) :
  Js.map Outcome.statusCode (Index.HttpResponse registry options)
  = Normal (Options.statusCode options).
Proof. now rewrite Index_HttpResponse_run. Qed.

Lemma statusCode_stored_error (options : Options.t Z) :
  Js.map Outcome.statusCode (Errors.HttpError registry options)
  = Normal (Options.statusCode options).
Proof. now rewrite Errors_HttpError_run. Qed.

(** C5, as the code has it: every pre-built class passes a fixed status
    code to the generic constructor of its family, and that code is the
    standard code of its name; whether this holds of
    [HttpVersionNotSupported] and [InsufficientStorage] is left aside.  The
    classes of the errors module, and the 4xx and 5xx classes of
    src/index.ts, take [(message?, status?)] and pass both on; the classes
    of src/responses.ts, and the 1xx to 3xx classes of src/index.ts, take
    [(message?)] only and leave the status to the defaulting rule.  The
    catalogs list 34, 17 and 51 classes. *)
Theorem catalog_signatures :
  length (Errors.catalog registry) = 34%nat /\
  length (Responses.catalog registry) = 17%nat /\
  length (Index.catalog registry) = 51%nat /\
  Forall
    (fun '(name, code, class) =>
       arity class = 2%nat /\
       (forall args,
           new class args
           = Errors.HttpError registry
               (Options.mk code (arg 0 args) (arg 1 args))) /\
       (Standard.code name = Some code \/ In name Standard.left_aside))
    (Errors.catalog registry) /\
  Forall
    (fun '(name, code, class) =>
       arity class = 1%nat /\
       (forall args,
           new class args
           = Responses.HttpResponse registry
               (Options.mk code (arg 0 args) None)) /\
       Standard.code name = Some code)
    (Responses.catalog registry) /\
  Forall
    (fun '(name, code, class) =>
       arity class = (if code <? 400 then 1%nat else 2%nat) /\
       (forall args,
           new class args
           = Index.HttpResponse registry
               (Options.mk code (arg 0 args)
                  (if code <? 400 then None else arg 1 args))) /\
       (Standard.code name = Some code \/ In name Standard.left_aside))
    (Index.catalog registry).
Proof.
  do 3 (split; [reflexivity|]).
  split; [|split];
    repeat (constructor;
            [split; [reflexivity|];
             split; [intros args; reflexivity|];
             first [reflexivity | left; reflexivity | right; simpl; tauto]|]);
    constructor.
Qed.

(** C6: in src/index.ts and in the errors module alike, the outcomes of
    [HttpVersionNotSupported] carry the status code 410 for every argument
    list, the code of the outcomes of [Gone]. *)
Theorem HttpVersionNotSupported_code (args : arguments) :
  Js.map Outcome.statusCode (new (Ctor2 (Index.HttpVersionNotSupported registry)) args)
  = Normal 410 /\
  Js.map Outcome.statusCode (new (Ctor2 (Index.Gone registry)) args)
  = Normal 410 /\
  Js.map Outcome.statusCode (new (Ctor2 (Errors.HttpVersionNotSupported registry)) args)
  = Normal 410 /\
  Js.map Outcome.statusCode (new (Ctor2 (Errors.Gone registry)) args)
  = Normal 410.
Proof.
  unfold new, Index.HttpVersionNotSupported, Index.Gone,
    Errors.HttpVersionNotSupported, Errors.Gone.
  repeat split;
    first [apply statusCode_stored_response | apply statusCode_stored_error].
Qed.

(** C10: for every message and status, [InsufficientSpaceOnResource] and
    [InsufficientStorage] build the same outcome, with status code 419, in
    src/index.ts and in the errors module. *)
Theorem InsufficientStorage_same_outcome (message status : option string) :
  Index.InsufficientSpaceOnResource registry message status
  = Index.InsufficientStorage registry message status /\
  Errors.InsufficientSpaceOnResource registry message status
  = Errors.InsufficientStorage registry message status /\
  Js.map Outcome.statusCode (Index.InsufficientStorage registry message status)
  = Normal 419 /\
  Js.map Outcome.statusCode (Errors.InsufficientStorage registry message status)
  = Normal 419.
Proof.
  split; [reflexivity|]. split; [reflexivity|].
  unfold Index.InsufficientStorage, Errors.InsufficientStorage.
  split; [apply statusCode_stored_response | apply statusCode_stored_error].
Qed.

(** C7: a class that extends [BadRequest] and fixes the status label
    "Validation Error" builds, when no message is given, the outcome with
    code 400 and with status and message "Validation Error".  With any
    message its status is that label and its code 400, whatever label the
    registry has for 400, the label that [BadRequest] itself and the other
    classes over the same code show. *)
Theorem ValidationError_outcome :
  Readme.ValidationError registry None
  = Normal (Outcome.mk 400 "Validation Error" "Validation Error") /\
  Readme.ValidationResponse registry None
  = Normal (Outcome.mk 400 "Validation Error" "Validation Error") /\
  (forall message,
      Js.map Outcome.status (Readme.ValidationError registry message)
      = Normal "Validation Error" /\
      Js.map Outcome.statusCode (Readme.ValidationError registry message)
      = Normal 400 /\
      Js.map Outcome.status (Readme.ValidationResponse registry message)
      = Normal "Validation Error" /\
      Js.map Outcome.statusCode (Readme.ValidationResponse registry message)
      = Normal 400) /\
  (forall (other : lookup Z Fault) message,
      Readme.ValidationError registry message = Readme.ValidationError other message /\
      Readme.ValidationResponse registry message
      = Readme.ValidationResponse other message) /\
  Js.map Outcome.statusCode (Errors.BadRequest registry None None) = Normal 400 /\
  Js.map Outcome.status (Errors.BadRequest registry None None)
  = Normal (match registry 400 with Normal l => l | Throw _ => "Unknown" end).
Proof.
  unfold Readme.ValidationError, Readme.ValidationResponse,
    Readme.extends_with_status, Errors.BadRequest, Index.BadRequest.
  repeat split; try reflexivity.
  all: rewrite Errors_HttpError_run; simpl; try reflexivity.
  unfold Spec.status, Spec.label; simpl.
  destruct (registry 400); reflexivity.
Qed.

End Catalogs.

(** ** Runs on the sample registry *)

(** [new BadRequest()] *)
Example BadRequest_no_arguments :
  new (Ctor2 (Errors.BadRequest Registry.sample)) []
  = Normal (Outcome.mk 400 "Bad Request" "Bad Request").
Proof. reflexivity. Qed.

(** [new Created('User Created!')] *)
Example Created_with_message :
  new (Ctor1 (Responses.Created Registry.sample)) [Some "User Created!"]
  = Normal (Outcome.mk 201 "User Created!" "Created").
Proof. reflexivity. Qed.

(** [new HttpResponse({ statusCode: 999 })] *)
Example unregistered_code :
  Index.HttpResponse Registry.sample (Options.mk 999 None None)
  = Normal (Outcome.mk 999 "Unknown" "Unknown").
Proof. reflexivity. Qed.

(** An explicit status wins over the registry and is the default message. *)
Example explicit_status :
  Errors.HttpError Registry.sample (Options.mk 400 None (Some "Validation Error"))
  = Normal (Outcome.mk 400 "Validation Error" "Validation Error").
Proof. reflexivity. Qed.

(** [new ValidationError()] and [new BadRequest()] share the code 400 and
    differ by their status. *)
Example ValidationError_and_BadRequest :
  Js.map Outcome.status (Readme.ValidationError Registry.sample None)
  = Normal "Validation Error" /\
  Js.map Outcome.status (Errors.BadRequest Registry.sample None None)
  = Normal "Bad Request".
Proof. split; reflexivity. Qed.


(** C4, the claim as stated fails: 999 is a code whose lookup fails, and
    with a status supplied the outcome keeps that status, not "Unknown". *)
Lemma supplied_status_kept_when_lookup_fails :
  Registry.sample 999 = Throw Registry.StatusCodeDoesNotExist /\
  Index.HttpResponse Registry.sample (Options.mk 999 None (Some "Custom"))
  = Normal (Outcome.mk 999 "Custom" "Custom") /\
  Errors.HttpError Registry.sample (Options.mk 999 None (Some "Custom"))
  = Normal (Outcome.mk 999 "Custom" "Custom") /\
  Js.map Outcome.status
    (Index.HttpResponse Registry.sample (Options.mk 999 None (Some "Custom")))
  <> Normal "Unknown".
Proof.
  repeat split; try reflexivity. discriminate.
Qed.

(** Absorption of a failing lookup at [new HttpResponse({ statusCode: 999 })]. *)
Lemma lookup_failure_absorbed_999 :
  Registry.sample 999 = Throw Registry.StatusCodeDoesNotExist /\
  exists out,
    Index.HttpResponse Registry.sample (Options.mk 999 None None) = Normal out /\
    Outcome.status out = "Unknown" /\
    Outcome.message out = "Unknown".
Proof.
  split; [reflexivity|].
  destruct
    (lookup_failure_absorbed Registry.sample (Options.mk 999 None None)
       Registry.StatusCodeDoesNotExist eq_refl
       (Index.HttpResponse Registry.sample) (or_introl eq_refl))
    as [out [Hrun Hfields]].
  exists out. split; [exact Hrun|].
  destruct (Hfields eq_refl) as [Hstatus Hmessage].
  split; [exact Hstatus | exact (Hmessage eq_refl)].
Defined.

(** C5, the claim as stated fails: [Created] is declared with a message
    only, so a second argument is not a status override. *)
Lemma Created_takes_no_status :
  In ("Created", 201, Ctor1 (Responses.Created Registry.sample))
    (Responses.catalog Registry.sample) /\
  arity (Ctor1 (Responses.Created Registry.sample)) = 1%nat /\
  new (Ctor1 (Responses.Created Registry.sample))
    [Some "User Created!"; Some "Custom"]
  = Normal (Outcome.mk 201 "User Created!" "Created") /\
  new (Ctor1 (Index.Created Registry.sample))
    [Some "User Created!"; Some "Custom"]
  = Normal (Outcome.mk 201 "User Created!" "Created") /\
  new (Ctor1 (Responses.Created Registry.sample))
    [Some "User Created!"; Some "Custom"]
  <> Responses.HttpResponse Registry.sample
       (Options.mk 201 (Some "User Created!") (Some "Custom")).
Proof.
  split; [simpl; right; left; reflexivity|].
  repeat split; discriminate.
Qed.

(** Non-emptiness at [new HttpError({ statusCode: 400, message: '', status: '' })]. *)
Lemma fields_non_empty_400 :
  (forall code l, Registry.sample code = Normal l -> l <> "") /\
  exists out,
    Errors.HttpError Registry.sample (Options.mk 400 (Some "") (Some ""))
    = Normal out /\
    Outcome.status out <> "" /\
    Outcome.message out <> "".
Proof.
  assert (Hlabels : forall code l, Registry.sample code = Normal l -> l <> "").
  { intros code l. unfold Registry.sample.
    destruct (code =? 201); [intros [= <-]; discriminate|].
    destruct (code =? 400); [intros [= <-]; discriminate|discriminate]. }
  split; [exact Hlabels|].
  apply (fields_non_empty Registry.sample (Options.mk 400 (Some "") (Some ""))
           Hlabels (Errors.HttpError Registry.sample)).
  simpl. right. right. left. reflexivity.
Defined.

(** ** Further properties of the generic constructors *)

Section Constructors.

Context {Code Fault : Type}.
Variable registry : lookup Code Fault.

(** The three generic constructors. *)
Lemma constructors_run (construct : Options.t Code -> completion Fault (Outcome.t Code))
  (options : Options.t Code) :
  In construct
    [Index.HttpResponse registry; Responses.HttpResponse registry;
     Errors.HttpError registry] ->
  construct options = Normal (Spec.construct registry options).
Proof.
  simpl. intros [<- | [<- | [<- | []]]];
    auto using Index_HttpResponse_run, Responses_HttpResponse_run, Errors_HttpError_run.
Qed.

Lemma provided_some (field : option string) (s : string) :
  Spec.provided field = Some s <-> field = Some s /\ s <> "".
Proof.
  destruct field as [x|]; simpl.
  - destruct (String.eqb_spec x "") as [->|Hx]; split.
    + discriminate.
    + intros [[= <-] H]. now elim H.
    + intros [= <-]. now split.
    + now intros [[= <-] _].
  - split; [discriminate | now intros [? _]].
Qed.

Lemma provided_string (s : string) :
  Spec.provided (Some s) = if String.eqb s "" then None else Some s.
Proof. reflexivity. Qed.

(** When the status of the specification is empty, no status was supplied
    and the registry has the empty label for the code. *)
Lemma status_empty (options : Options.t Code) :
  Spec.status registry options = "" <->
  Spec.provided (Options.status options) = None /\
  registry (Options.statusCode options) = Normal "".
Proof.
  unfold Spec.status, Spec.label.
  destruct (Spec.provided (Options.status options)) as [s|] eqn:Es.
  - apply provided_some in Es as [_ Hs]. split; [intros ->; now elim Hs|].
    now intros [? _].
  - destruct (registry (Options.statusCode options)) as [l|e]; split.
    + now intros ->.
    + now intros [_ [= ->]].
    + discriminate.
    + now intros [_ ?].
Qed.

(** Building an outcome again from the three fields of an outcome gives the
    same outcome, within a family and from one family to the other. *)
Theorem reconstruction
  (construct again : Options.t Code -> completion Fault (Outcome.t Code))
  (options : Options.t Code) (out : Outcome.t Code) :
  In construct
    [Index.HttpResponse registry; Responses.HttpResponse registry;
     Errors.HttpError registry] ->
  In again
    [Index.HttpResponse registry; Responses.HttpResponse registry;
     Errors.HttpError registry] ->
  construct options = Normal out ->
  again
    (Options.mk (Outcome.statusCode out) (Some (Outcome.message out))
       (Some (Outcome.status out)))
  = Normal out.
Proof.
  intros Hconstruct Hagain Hrun.
  rewrite (constructors_run _ _ Hconstruct) in Hrun. injection Hrun as <-.
  rewrite (constructors_run _ _ Hagain). f_equal.
  unfold Spec.construct at 2 3 4.
  cbn [Outcome.statusCode Outcome.message Outcome.status].
  set (st := Spec.status registry options).
  set (msg := Spec.message registry options).
  assert (Hst :
    Spec.status registry
      (Options.mk (Options.statusCode options) (Some msg) (Some st)) = st).
  { unfold Spec.status at 1. cbn [Options.status Options.statusCode].
    rewrite provided_string.
    destruct (String.eqb_spec st "") as [Hempty|_]; [|reflexivity].
    unfold Spec.label. rewrite Hempty.
    apply status_empty in Hempty as [_ ->]. reflexivity. }
  unfold Spec.construct.
  cbn [Options.statusCode]. rewrite Hst. f_equal.
  unfold Spec.message at 1. cbn [Options.message]. rewrite provided_string, Hst.
  destruct (String.eqb_spec msg "") as [Hempty|_]; [|reflexivity].
  subst msg. unfold Spec.message in *.
  destruct (Spec.provided (Options.message options)) as [m|] eqn:Em.
  - apply provided_some in Em as [_ Hm]. now elim Hm.
  - reflexivity.
Qed.

(** An empty string supplied for the message or for the status is the same
    as no value. *)
Theorem empty_is_absent (statusCode : Code) (message status : option string) :
  Forall
    (fun construct : Options.t Code -> completion Fault (Outcome.t Code) =>
       construct (Options.mk statusCode (Some "") status)
       = construct (Options.mk statusCode None status) /\
       construct (Options.mk statusCode message (Some ""))
       = construct (Options.mk statusCode message None))
    [Index.HttpResponse registry; Responses.HttpResponse registry;
     Errors.HttpError registry].
Proof.
  repeat constructor.
Qed.

(** The status of an outcome is empty exactly when no non-empty status is
    supplied and the registry returns the empty label; its message is empty
    exactly when no non-empty message is supplied and its status is empty. *)
Theorem empty_fields (options : Options.t Code) :
  Forall
    (fun construct : Options.t Code -> completion Fault (Outcome.t Code) =>
       exists out,
         construct options = Normal out /\
         (Outcome.status out = "" <->
          Spec.provided (Options.status options) = None /\
          registry (Options.statusCode options) = Normal "") /\
         (Outcome.message out = "" <->
          Spec.provided (Options.message options) = None /\
          Outcome.status out = ""))
    [Index.HttpResponse registry; Responses.HttpResponse registry;
     Errors.HttpError registry].
Proof.
  assert (Hmessage :
    Spec.message registry options = "" <->
    Spec.provided (Options.message options) = None /\
    Spec.status registry options = "").
  { unfold Spec.message.
    destruct (Spec.provided (Options.message options)) as [m|] eqn:Em.
    - apply provided_some in Em as [_ Hm]. split; [intros ->; now elim Hm|].
      now intros [? _].
    - tauto. }
  repeat constructor;
    exists (Spec.construct registry options);
    (split; [apply constructors_run; simpl; tauto|]);
    split; [apply status_empty | exact Hmessage | apply status_empty
            | exact Hmessage | apply status_empty | exact Hmessage].
Qed.

End Constructors.

Section Registries.

Context {Code Fault1 Fault2 : Type}.
Variable registry1 : lookup Code Fault1.
Variable registry2 : lookup Code Fault2.


End Registries.

(** ** Further properties of the pre-built classes *)

Section Classes.

Import Catalog.

Context {Fault : Type}.
Variable registry : lookup Z Fault.

Lemma every_class_runs : Forall (runs_as_specified registry) (every registry).
Proof.
  unfold every. rewrite !Forall_app. repeat split;
    repeat (constructor;
            [split; [reflexivity | intros args; apply Index_HttpResponse_run]|]);
    constructor.
Qed.

Lemma class_runs (e : entry Fault) :
  In e (every registry) -> runs_as_specified registry e.
Proof. intros Hin. exact (proj1 (Forall_forall _ _) every_class_runs e Hin). Qed.

Lemma Index_in_every (e : entry Fault) :
  In e (Index.catalog registry) -> In e (every registry).
Proof. unfold every. rewrite !in_app_iff. tauto. Qed.

Lemma Responses_in_every (e : entry Fault) :
  In e (Responses.catalog registry) -> In e (every registry).
Proof. unfold every. rewrite !in_app_iff. tauto. Qed.

Lemma Errors_in_every (e : entry Fault) :
  In e (Errors.catalog registry) -> In e (every registry).
Proof. unfold every. rewrite !in_app_iff. tauto. Qed.

Lemma row_in (e : entry Fault) (l : list (entry Fault)) :
  In e l -> In (row e) (List.map row l).
Proof. apply in_map. Qed.

(** For the classes of src/responses.ts followed by the classes of the
    errors module, src/index.ts declares, in the same order, classes with
    the same names, codes and numbers of parameters, whose outcomes carry
    the same statusCode, message and status on every argument list. *)
Theorem index_merges_modules :
  Forall2
    (fun e1 e2 =>
       name e1 = name e2 /\ code e1 = code e2 /\
       arity (class e1) = arity (class e2) /\
       forall args, same_fields (new (class e1) args) (new (class e2) args))
    (Index.catalog registry)
    (Responses.catalog registry ++ Errors.catalog registry).
Proof.
  assert (Hsame : forall (c : completion Fault (Outcome.t Z)) out,
             c = Normal out -> same_fields c c).
  { intros c out ->. exists out, out. repeat split. }
  repeat (constructor;
          [do 3 (split; [reflexivity|]); intros args;
           eapply Hsame; apply Index_HttpResponse_run|]).
  constructor.
Qed.

End Classes.

Section Codes.

Import Catalog.

Context {Fault : Type}.
Variable registry : lookup Z Fault.

Lemma codes_within_In (low high : Z) (l : list (entry Fault)) (e : entry Fault) :
  codes_within low high (List.map row l) = true ->
  In e l -> low <= code e < high.
Proof.
  intros Hcheck Hin. unfold codes_within in Hcheck.
  rewrite forallb_forall in Hcheck. specialize (Hcheck (row e) (row_in e l Hin)).
  apply andb_true_iff in Hcheck as [Hlow Hhigh].
  split; [now apply Z.leb_le | now apply Z.ltb_lt].
Qed.

Lemma statusCode_of_class (e : entry Fault) (args : arguments) :
  In e (every registry) ->
  exists out, new (class e) args = Normal out /\ Outcome.statusCode out = code e.
Proof.
  intros Hin. destruct (class_runs registry e Hin) as [_ Hrun].
  eexists. split; [apply Hrun | reflexivity].
Qed.

(** Whatever the arguments and the registry, a class of src/responses.ts
    builds an outcome with a code from 100 to 399 and a class of the errors
    module one with a code from 400 to 599; in src/index.ts the classes with
    a single parameter are the ones with a code below 400. *)
Theorem status_code_ranges :
  Forall
    (fun e => forall args, exists out,
         new (class e) args = Normal out /\
         100 <= Outcome.statusCode out < 400)
    (Responses.catalog registry) /\
  Forall
    (fun e => forall args, exists out,
         new (class e) args = Normal out /\
         400 <= Outcome.statusCode out < 600)
    (Errors.catalog registry) /\
  Forall
    (fun e => forall args, exists out,
         new (class e) args = Normal out /\
         100 <= Outcome.statusCode out < 600 /\
         (arity (class e) = 1%nat <-> Outcome.statusCode out < 400))
    (Index.catalog registry).
Proof.
  split; [|split]; apply Forall_forall; intros e Hin args.
  - destruct (statusCode_of_class e args (Responses_in_every registry e Hin))
      as [out [Hrun Hcode]].
    exists out. split; [exact Hrun|]. rewrite Hcode.
    now apply (codes_within_In 100 400 (Responses.catalog registry)).
  - destruct (statusCode_of_class e args (Errors_in_every registry e Hin))
      as [out [Hrun Hcode]].
    exists out. split; [exact Hrun|]. rewrite Hcode.
    now apply (codes_within_In 400 600 (Errors.catalog registry)).
  - destruct (statusCode_of_class e args (Index_in_every registry e Hin))
      as [out [Hrun Hcode]].
    exists out. split; [exact Hrun|]. rewrite Hcode.
    split; [now apply (codes_within_In 100 600 (Index.catalog registry))|].
    destruct (class_runs registry e (Index_in_every registry e Hin)) as [-> _].
    destruct (Z.ltb_spec (code e) 400) as [Hlt|Hge]; split;
      try easy.
    intros Hlt. now apply Z.lt_nge in Hlt.
Qed.

(** No pre-built class ever builds an outcome with the code 505 or 507,
    the codes of the sections that the comments of
    [HttpVersionNotSupported] and [InsufficientStorage] refer to. *)
Theorem codes_never_built :
  Forall
    (fun e => forall args, exists out,
         new (class e) args = Normal out /\
         Outcome.statusCode out <> 505 /\
         Outcome.statusCode out <> 507)
    (every registry).
Proof.
  apply Forall_forall. intros e Hin args.
  destruct (statusCode_of_class e args Hin) as [out [Hrun Hcode]].
  exists out. split; [exact Hrun|]. rewrite Hcode.
  assert (Hcheck : codes_avoid [505; 507] (List.map row (every registry)) = true)
    by (vm_compute; reflexivity).
  unfold codes_avoid in Hcheck. rewrite forallb_forall in Hcheck.
  specialize (Hcheck (row e) (row_in e _ Hin)). cbn [forallb] in Hcheck.
  apply andb_true_iff in Hcheck as [H505 H].
  apply andb_true_iff in H as [H507 _].
  apply negb_true_iff in H505, H507.
  split; [now apply Z.eqb_neq | now apply Z.eqb_neq].
Qed.

(** Two pre-built classes, of one module or of two, build outcomes with
    the same statusCode, message and status on every argument list exactly
    when they have the same code; classes with the same code have the same
    name or are [Gone] and [HttpVersionNotSupported], or
    [InsufficientSpaceOnResource] and [InsufficientStorage]. *)
Theorem interchangeable_classes (e1 e2 : entry Fault) :
  In e1 (every registry) ->
  In e2 (every registry) ->
  ((forall args, same_fields (new (class e1) args) (new (class e2) args)) <->
   code e1 = code e2) /\
  (code e1 = code e2 ->
   name e1 = name e2 \/
   In (name e1, name e2) twins \/ In (name e2, name e1) twins).
Proof.
  intros Hin1 Hin2.
  destruct (class_runs registry e1 Hin1) as [_ Hrun1].
  destruct (class_runs registry e2 Hin2) as [_ Hrun2].
  split; [split|].
  - intros Hsame. destruct (Hsame []) as [out1 [out2 [H1 [H2 [Hcode _]]]]].
    rewrite Hrun1 in H1. rewrite Hrun2 in H2.
    injection H1 as <-. injection H2 as <-. exact Hcode.
  - intros Hcode args. rewrite Hrun1, Hrun2, Hcode.
    eexists. eexists. repeat split.
  - intros Hcode.
    assert (Hcheck :
      codes_shared_by_twins_only (List.map row (every registry)) = true)
      by (vm_compute; reflexivity).
    unfold codes_shared_by_twins_only in Hcheck.
    rewrite forallb_forall in Hcheck.
    specialize (Hcheck (row e1) (row_in e1 _ Hin1)).
    rewrite forallb_forall in Hcheck.
    specialize (Hcheck (row e2) (row_in e2 _ Hin2)).
    unfold apart_or_twins in Hcheck.
    apply orb_true_iff in Hcheck as [Hcheck | Htwin].
    + apply orb_true_iff in Hcheck as [Hapart | Hname].
      * apply negb_true_iff, Z.eqb_neq in Hapart. now elim Hapart.
      * left. now apply String.eqb_eq.
    + right. unfold is_twin in Htwin. apply existsb_exists in Htwin
        as [[a b] [Hpair Hnames]].
      cbn [fst snd] in Hnames.
      apply orb_true_iff in Hnames as [H | H];
        apply andb_true_iff in H as [Ha Hb];
        apply String.eqb_eq in Ha, Hb; subst; [left | right]; exact Hpair.
Qed.

(** A class of a consumer that extends a pre-built class with two
    parameters and fixes a non-empty status label keeps the code of its
    parent, has the label as status and the label as default message; with
    an empty label it is its parent called without a status. *)
Theorem custom_status_over_any_class (e : entry Fault)
  (parent : option string -> option string -> completion Fault (Outcome.t Z))
  (label : string) (message : option string) :
  In e (every registry) ->
  class e = Ctor2 parent ->
  (label <> "" ->
   Readme.extends_with_status parent label message
   = Normal (Outcome.mk (code e) (Js.or message label) label)) /\
  Readme.extends_with_status parent "" message = parent message None.
Proof.
  intros Hin Hclass.
  destruct (class_runs registry e Hin) as [Harity Hrun].
  rewrite Hclass in Harity, Hrun. cbn [arity] in Harity.
  destruct (code e <? 400); [discriminate|].
  assert (Hparent : forall m s,
    parent m s = Normal (Spec.construct registry (Options.mk (code e) m s))).
  { intros m s. exact (Hrun [m; s]). }
  unfold Readme.extends_with_status. rewrite !Hparent. split.
  - intros Hlabel. unfold Spec.construct, Spec.message, Spec.status.
    cbn [Options.statusCode Options.message Options.status].
    rewrite provided_string, or_provided.
    destruct (String.eqb_spec label ""); [contradiction|reflexivity].
  - reflexivity.
Qed.

End Codes.

(** ** Runs of the further properties *)

(** The outcome of [new Created('User Created!')], passed as options to
    [new HttpError(...)]. *)
Lemma reconstruction_Created :
  Index.HttpResponse Registry.sample (Options.mk 201 (Some "User Created!") None)
  = Normal (Outcome.mk 201 "User Created!" "Created") /\
  Errors.HttpError Registry.sample
    (Options.mk 201 (Some "User Created!") (Some "Created"))
  = Normal (Outcome.mk 201 "User Created!" "Created").
Proof.
  split; [reflexivity|].
  apply (reconstruction Registry.sample
           (Index.HttpResponse Registry.sample) (Errors.HttpError Registry.sample)
           (Options.mk 201 (Some "User Created!") None)
           (Outcome.mk 201 "User Created!" "Created")).
  - simpl. left. reflexivity.
  - simpl. right. right. left. reflexivity.
  - reflexivity.
Defined.


(** [Gone] of the errors module and [HttpVersionNotSupported] of
    src/index.ts build outcomes with the same fields. *)
Lemma interchangeable_Gone :
  same_fields
    (new (Ctor2 (Errors.Gone Registry.sample)) [Some "no longer here"])
    (new (Ctor2 (Index.HttpVersionNotSupported Registry.sample))
       [Some "no longer here"]).
Proof.
  assert (Hgone :
    In ("Gone", 410, Ctor2 (Errors.Gone Registry.sample))
      (Catalog.every Registry.sample)).
  { cbv beta delta [Catalog.every Index.catalog Responses.catalog Errors.catalog];
      cbn [app In]; repeat (first [left; reflexivity | right]). }
  assert (Hversion :
    In ("HttpVersionNotSupported", 410,
        Ctor2 (Index.HttpVersionNotSupported Registry.sample))
      (Catalog.every Registry.sample)).
  { cbv beta delta [Catalog.every Index.catalog Responses.catalog Errors.catalog];
      cbn [app In]; repeat (first [left; reflexivity | right]). }
  destruct (interchangeable_classes Registry.sample _ _ Hgone Hversion)
    as [[_ Hsame] _].
  exact (Hsame eq_refl [Some "no longer here"]).
Defined.

(** A class over [BadRequest] with the label "Validation Error", called
    with a message. *)
Lemma custom_status_over_BadRequest :
  Readme.extends_with_status (Errors.BadRequest Registry.sample)
    "Validation Error" (Some "name is required")
  = Normal (Outcome.mk 400 "name is required" "Validation Error").
Proof.
  apply (custom_status_over_any_class Registry.sample
           ("BadRequest", 400, Ctor2 (Errors.BadRequest Registry.sample))
           (Errors.BadRequest Registry.sample)
           "Validation Error" (Some "name is required")).
  - cbv beta delta [Catalog.every Index.catalog Responses.catalog Errors.catalog];
      cbn [app In]; repeat (first [left; reflexivity | right]).
  - reflexivity.
  - discriminate.
Defined.
